(** * Repository metrics calculator ([analyze_code_metrics])

    A shallow embedding of the function [analyze_code_metrics] of
    [EX4-AgentOrchestrationService/challenge/solutions/ex4-ch1-solution.py]
    together with the properties its specification states about it.

    Python objects are modelled as follows.
    - Immutable scalars ([None], [bool], [int], [str]) are the type [value];
      [int] is unbounded, hence [Z]; a [str] is the sequence of its bytes.
    - The argument of the function is an [object]: a scalar, a list of
      scalars or a dictionary from string keys to scalars.  Floating point
      numbers and nested containers are outside the model.
    - A dictionary is a [gmap string value]; the value returned by the
      function is such a dictionary too.
    - An exception ends the call: [Raised e]. *)

From stdpp Require Import gmap strings pretty.

Local Open Scope string_scope.
Local Open Scope Z_scope.

(** ** Python values *)

Inductive value : Type :=
  | VNone
  | VBool (b : bool)
  | VInt (z : Z)
  | VStr (s : string).

Inductive object : Type :=
  | OScalar (v : value)
  | OList (l : list value)
  | ODict (d : gmap string value).

Inductive exn : Type :=
  | AttributeError
  | TypeError
  | ValueError
  | SystemError.

Inductive outcome (A : Type) : Type :=
  | Returned (a : A)
  | Raised (e : exn).

Arguments Returned {A} a.
Arguments Raised {A} e.

#[global] Instance value_eq_dec : EqDecision value.
Proof. solve_decision. Defined.

#[global] Instance exn_eq_dec : EqDecision exn.
Proof. solve_decision. Defined.

#[global] Instance outcome_ret : MRet outcome := fun _ a => Returned a.

#[global] Instance outcome_bind : MBind outcome := fun _ _ f m =>
  match m with
  | Returned a => f a
  | Raised e => Raised e
  end.

(** ** Built-in operations used by the function *)

(** [bool(v)] for a scalar. *)
Definition value_truthy (v : value) : bool :=
  match v with
  | VNone => false
  | VBool b => b
  | VInt z => negb (z =? 0)
  | VStr s => negb (String.eqb s "")
  end.

(** [bool(o)]: containers are true exactly when they are not empty. *)
Definition truthy (o : object) : bool :=
  match o with
  | OScalar v => value_truthy v
  | OList l => match l with [] => false | _ :: _ => true end
  | ODict d => negb (bool_decide (d = ∅))
  end.

(** [o.get(key, dflt)]: only a dictionary has the method. *)
Definition py_get (o : object) (key : string) (dflt : value) : outcome value :=
  match o with
  | ODict d => Returned (default dflt (d !! key))
  | _ => Raised AttributeError
  end.

(** The integer a value denotes in an arithmetic comparison: [bool] is a
    subtype of [int] with [False == 0] and [True == 1]. *)
Definition as_int (v : value) : option Z :=
  match v with
  | VInt z => Some z
  | VBool b => Some (if b then 1 else 0)
  | _ => None
  end.

(** [v < n] and [v > n] against an integer literal [n]: [None] and [str]
    are not ordered against [int]. *)
Definition py_lt (v : value) (n : Z) : outcome bool :=
  match as_int v with
  | Some z => Returned (z <? n)
  | None => Raised TypeError
  end.

Definition py_gt (v : value) (n : Z) : outcome bool :=
  match as_int v with
  | Some z => Returned (z >? n)
  | None => Raised TypeError
  end.

(** [sys.int_info.default_max_str_digits]: the decimal conversion of an
    integer with more digits raises [ValueError]. *)
Definition int_max_str_digits : Z := 4300.

(** [format(v, "")], what an f-string replacement field [{v}] produces. *)
Definition py_format (v : value) : outcome string :=
  match v with
  | VNone => Returned "None"
  | VBool b => Returned (if b then "True" else "False")
  | VInt z =>
      if Z.abs z <? 10 ^ int_max_str_digits then Returned (pretty z)
      else Raised ValueError
  | VStr s => Returned s
  end.

(** [str.lower] on the ASCII range. *)
Definition lower_ascii (c : Ascii.ascii) : Ascii.ascii :=
  let n := Ascii.nat_of_ascii c in
  if ((65 <=? n) && (n <=? 90))%nat then Ascii.ascii_of_nat (n + 32) else c.

Fixpoint py_lower (s : string) : string :=
  match s with
  | EmptyString => EmptyString
  | String c s' => String (lower_ascii c) (py_lower s')
  end.

(** ** The function *)

Definition error_dict : gmap string value :=
  {[ "error" := VStr "No repository data provided" ]}.

(** Lines 93 to 119: the three classifications and the returned dictionary,
    from the five values read from the descriptor. *)
Definition derived_metrics (language size_kb stars forks issues : value)
  : outcome (gmap string value) :=
  project_size ←
    (c ← py_lt size_kb 1000;
     if c : bool then Returned "Small"
     else c ← py_lt size_kb 10000;
          if c : bool then Returned "Medium" else Returned "Large");
  popularity ←
    (c ← py_lt stars 100;
     if c : bool then Returned "Low"
     else c ← py_lt stars 1000;
          if c : bool then Returned "Medium" else Returned "High");
  activity_level ←
    (c ← py_gt issues 10;
     if c : bool then Returned "Active"
     else c ← py_gt issues 0;
          if c : bool then Returned "Moderate" else Returned "Low");
  language_text ← py_format language;
  Returned
    (<[ "main_language" := language ]>
     (<[ "project_size" := VStr project_size ]>
     (<[ "popularity_level" := VStr popularity ]>
     (<[ "activity_level" := VStr activity_level ]>
     (<[ "repository_size_kb" := size_kb ]>
     (<[ "stars" := stars ]>
     (<[ "forks" := forks ]>
     (<[ "open_issues" := issues ]>
     (<[ "complexity_summary" :=
           VStr (project_size +:+ " " +:+ language_text +:+ " project with "
                 +:+ py_lower popularity +:+ " popularity") ]>
      ∅))))))))).

(** Lines 82 to 90, then the computation above. *)
Definition analyze_code_metrics (repo_data : object)
  : outcome (gmap string value) :=
  if negb (truthy repo_data) then
    Returned error_dict
  else
    language ← py_get repo_data "language" (VStr "Unknown");
    size_kb ← py_get repo_data "size" (VInt 0);
    stars ← py_get repo_data "stargazers_count" (VInt 0);
    forks ← py_get repo_data "forks_count" (VInt 0);
    issues ← py_get repo_data "open_issues_count" (VInt 0);
    derived_metrics language size_kb stars forks issues.

(** ** The same call on a heap of objects

    A caller holds a reference to the descriptor, and the dictionary the
    function returns is a new object.  [heap] maps the addresses in use to
    the objects they hold; a computation takes the heap before and gives the
    heap after together with its outcome. *)

Definition loc : Type := positive.

Definition hcomp (A : Type) : Type := gmap loc object → gmap loc object * outcome A.

#[global] Instance hcomp_ret : MRet hcomp := fun _ a h => (h, Returned a).

#[global] Instance hcomp_bind : MBind hcomp := fun _ _ f m h =>
  match m h with
  | (h', Returned a) => f a h'
  | (h', Raised e) => (h', Raised e)
  end.

(** Reading through a reference.  Every reference a Python program holds
    denotes an object; for an address outside the heap the model answers
    with the interpreter's internal error. *)
Definition h_deref (l : loc) : hcomp object := fun h =>
  match h !! l with
  | Some o => (h, Returned o)
  | None => (h, Raised SystemError)
  end.

(** An outcome computed without the heap. *)
Definition h_lift {A : Type} (m : outcome A) : hcomp A := fun h => (h, m).

(** [not l], [l.get(key, dflt)] and the dictionary display [{...}]. *)
Definition h_truthy (l : loc) : hcomp bool :=
  o ← h_deref l; mret (truthy o).

Definition h_get (l : loc) (key : string) (dflt : value) : hcomp value :=
  o ← h_deref l; h_lift (py_get o key dflt).

Definition h_new_dict (d : gmap string value) : hcomp loc := fun h =>
  let l := fresh (dom h) in (<[ l := ODict d ]> h, Returned l).

Definition analyze_code_metrics_heap (repo_data : loc) : hcomp loc :=
  b ← h_truthy repo_data;
  if negb b then
    h_new_dict error_dict
  else
    language ← h_get repo_data "language" (VStr "Unknown");
    size_kb ← h_get repo_data "size" (VInt 0);
    stars ← h_get repo_data "stargazers_count" (VInt 0);
    forks ← h_get repo_data "forks_count" (VInt 0);
    issues ← h_get repo_data "open_issues_count" (VInt 0);
    result ← h_lift (derived_metrics language size_kb stars forks issues);
    h_new_dict result.

(** ** Vocabulary of the specification *)

(** The three classifications as functions of the integer compared. *)
Definition size_class (z : Z) : string :=
  if z <? 1000 then "Small" else if z <? 10000 then "Medium" else "Large".

Definition popularity_class (z : Z) : string :=
  if z <? 100 then "Low" else if z <? 1000 then "Medium" else "High".

Definition activity_class (z : Z) : string :=
  if z >? 10 then "Active" else if z >? 0 then "Moderate" else "Low".

(** The nine-entry dictionary of a summary. *)
Definition metrics_dict (language : value) (project_size popularity activity : string)
    (size_kb stars forks issues : value) (summary : string)
  : gmap string value :=
  <[ "main_language" := language ]>
  (<[ "project_size" := VStr project_size ]>
  (<[ "popularity_level" := VStr popularity ]>
  (<[ "activity_level" := VStr activity ]>
  (<[ "repository_size_kb" := size_kb ]>
  (<[ "stars" := stars ]>
  (<[ "forks" := forks ]>
  (<[ "open_issues" := issues ]>
  (<[ "complexity_summary" := VStr summary ]> ∅)))))))).

(** The sentence of [complexity_summary]. *)
Definition summary_sentence (project_size language_text popularity : string) : string :=
  project_size +:+ " " +:+ language_text +:+ " project with "
  +:+ py_lower popularity +:+ " popularity".

(** The keys the specification lists as consumed. *)
Definition consumed_keys : list string :=
  ["language"; "size"; "stargazers_count"; "forks_count"; "open_issues_count"].

(** A descriptor is well formed when each consumed key is absent or holds a
    value of the type the data model gives it: a string for [language], an
    integer for the four counters. *)
Definition is_str (v : value) : bool :=
  match v with VStr _ => true | _ => false end.

Definition is_int (v : value) : bool :=
  match v with VInt _ => true | _ => false end.

Definition field_ok (p : value → bool) (d : gmap string value) (key : string) : bool :=
  match d !! key with
  | Some v => p v
  | None => true
  end.

Definition well_formed (d : gmap string value) : bool :=
  field_ok is_str d "language"
  && field_ok is_int d "size"
  && field_ok is_int d "stargazers_count"
  && field_ok is_int d "forks_count"
  && field_ok is_int d "open_issues_count".

(** The example descriptor of the specification. *)
Definition ex_python : gmap string value :=
  <[ "language" := VStr "Python" ]>
  (<[ "size" := VInt 5000 ]>
  (<[ "stargazers_count" := VInt 500 ]>
  (<[ "forks_count" := VInt 10 ]>
  (<[ "open_issues_count" := VInt 3 ]> ∅)))).

(** The summary built from the defaults alone. *)
Definition default_summary : gmap string value :=
  metrics_dict (VStr "Unknown") "Small" "Low" "Low"
    (VInt 0) (VInt 0) (VInt 0) (VInt 0)
    "Small Unknown project with low popularity".

(** What the call returns on [ex_python]. *)
Definition ex_python_summary : gmap string value :=
  metrics_dict (VStr "Python") "Medium" "Medium" "Moderate"
    (VInt 5000) (VInt 500) (VInt 10) (VInt 3)
    "Medium Python project with medium popularity".

(** The dictionary a heap-level outcome refers to. *)
Definition result_of (hr : gmap loc object * outcome loc) : outcome (gmap string value) :=
  match hr.2 with
  | Returned p =>
      match hr.1 !! p with
      | Some (ODict r) => Returned r
      | _ => Raised SystemError
      end
  | Raised e => Raised e
  end.

(** The keys of a summary. *)
Definition summary_keys : gset string :=
  list_to_set ["main_language"; "project_size"; "popularity_level";
               "activity_level"; "repository_size_kb"; "stars"; "forks";
               "open_issues"; "complexity_summary"].

(** Descriptors and a heap used as concrete instances below. *)
Definition ex_unrelated : gmap string value := {[ "name" := VStr "demo" ]}.

Definition ex_negative : gmap string value :=
  <[ "size" := VInt (-5) ]>
  (<[ "stargazers_count" := VInt (-1) ]>
  (<[ "open_issues_count" := VInt (-3) ]> ∅)).

Definition ex_heap : gmap loc object := {[ 1%positive := ODict ex_python ]}.

(** A descriptor with one counter set. *)
Definition with_counter (key : string) (z : Z) : object := ODict {[ key := VInt z ]}.

(** One field of what a call returns. *)
Definition field_of (o : object) (key : string) : outcome (option value) :=
  r ← analyze_code_metrics o; Returned (r !! key).

(** ** Vocabulary for the behaviour outside the specification *)

(** The keys whose values lines 93 to 107 compare with a number. *)
Definition compared_keys : list string :=
  ["size"; "stargazers_count"; "open_issues_count"].

(** The keys on which the classification of size and popularity and the
    sentence of [complexity_summary] are computed. *)
Definition summary_input_keys : list string :=
  ["language"; "size"; "stargazers_count"].

(** A value that can stand in a comparison with a number. *)
Definition is_number (v : value) : bool :=
  match as_int v with
  | Some _ => true
  | None => false
  end.

(** The value compared under each of [compared_keys] is a number. *)
Definition compared_numeric (d : gmap string value) : bool :=
  forallb (fun k => is_number (default (VInt 0) (d !! k))) compared_keys.

(** Each consumed key with the default the call gives it at lines 86 to 90. *)
Definition consumed_defaults : list (string * value) :=
  [("language", VStr "Unknown"); ("size", VInt 0); ("stargazers_count", VInt 0);
   ("forks_count", VInt 0); ("open_issues_count", VInt 0)].

(** The order of the levels of each classification. *)
Definition size_rank (s : string) : nat :=
  if String.eqb s "Small" then 0%nat else if String.eqb s "Medium" then 1%nat else 2%nat.

Definition popularity_rank (s : string) : nat :=
  if String.eqb s "Low" then 0%nat else if String.eqb s "Medium" then 1%nat else 2%nat.

Definition activity_rank (s : string) : nat :=
  if String.eqb s "Low" then 0%nat else if String.eqb s "Moderate" then 1%nat else 2%nat.

(** The rank of the level a returned dictionary holds under [key]. *)
Definition field_rank (rank : string → nat) (r : gmap string value) (key : string) : nat :=
  match r !! key with
  | Some (VStr s) => rank s
  | _ => 0%nat
  end.

(** Further descriptors used as concrete instances below. *)
Definition ex_null_language : gmap string value :=
  <[ "language" := VNone ]> (<[ "size" := VInt 20000 ]> ∅).

Definition ex_bad_size : gmap string value := {[ "size" := VStr "12" ]}.

Definition ex_large : gmap string value :=
  <[ "language" := VStr "Python" ]>
  (<[ "size" := VInt 50000 ]>
  (<[ "stargazers_count" := VInt 5000 ]>
  (<[ "open_issues_count" := VInt 30 ]> ∅))).

Definition ex_python_busy : gmap string value :=
  <[ "open_issues_count" := VInt 50 ]> (<[ "forks_count" := VInt 7 ]> ex_python).

Definition ex_python_busy_summary : gmap string value :=
  metrics_dict (VStr "Python") "Medium" "Medium" "Active"
    (VInt 5000) (VInt 500) (VInt 7) (VInt 50)
    "Medium Python project with medium popularity".

Definition ex_large_summary : gmap string value :=
  metrics_dict (VStr "Python") "Large" "High" "Active"
    (VInt 50000) (VInt 5000) (VInt 0) (VInt 30)
    "Large Python project with high popularity".

(** A descriptor with a negative count of open issues, and what the call
    returns on it. *)
Definition ex_negative_issues : gmap string value :=
  {[ "open_issues_count" := VInt (-3) ]}.

Definition ex_negative_issues_summary : gmap string value :=
  metrics_dict (VStr "Unknown") "Small" "Low" "Low"
    (VInt 0) (VInt 0) (VInt 0) (VInt (-3))
    "Small Unknown project with low popularity".

(** [ex_python] with one more key, which the call does not consume. *)
Definition ex_python_named : gmap string value :=
  <[ "name" := VStr "demo" ]> ex_python.

(** ** Basic facts about the operations *)

Lemma truthy_dict (d : gmap string value) : truthy (ODict d) = true ↔ d ≠ ∅.
Proof.
  unfold truthy. rewrite negb_true_iff, bool_decide_eq_false. reflexivity.
Qed.

Lemma dict_nonempty (d : gmap string value) (k : string) (v : value) :
  d !! k = Some v → d ≠ ∅.
Proof. intros H ->. rewrite lookup_empty in H. discriminate. Qed.

(** ** The shape of a call *)

(** A falsy argument reaches line 83. *)
Lemma analyze_falsy (o : object) :
  truthy o = false → analyze_code_metrics o = Returned error_dict.
Proof. intros H. unfold analyze_code_metrics. rewrite H. reflexivity. Qed.

(** A non-empty dictionary reaches lines 86 to 119. *)
Lemma analyze_dict (d : gmap string value) :
  d ≠ ∅ →
  analyze_code_metrics (ODict d) =
    derived_metrics (default (VStr "Unknown") (d !! "language"))
                    (default (VInt 0) (d !! "size"))
                    (default (VInt 0) (d !! "stargazers_count"))
                    (default (VInt 0) (d !! "forks_count"))
                    (default (VInt 0) (d !! "open_issues_count")).
Proof.
  intros H. apply truthy_dict in H. unfold analyze_code_metrics.
  rewrite H. reflexivity.
Qed.

(** A truthy argument that is not a dictionary has no [get]. *)
Lemma analyze_truthy_not_dict (o : object) :
  truthy o = true → (∀ d, o ≠ ODict d) →
  analyze_code_metrics o = Raised AttributeError.
Proof.
  intros H Hd. unfold analyze_code_metrics. rewrite H.
  destruct o as [v|l|d]; [reflexivity | reflexivity | destruct (Hd d eq_refl)].
Qed.

(** The computation of lines 93 to 119 when the three compared values are
    integers and the language can be formatted. *)
Lemma derived_metrics_ints (language size_kb stars forks issues : value)
    (zs zt zi : Z) (txt : string) :
  as_int size_kb = Some zs → as_int stars = Some zt → as_int issues = Some zi →
  py_format language = Returned txt →
  derived_metrics language size_kb stars forks issues =
    Returned (metrics_dict language (size_class zs) (popularity_class zt)
                (activity_class zi) size_kb stars forks issues
                (summary_sentence (size_class zs) txt (popularity_class zt))).
Proof.
  intros Hs Ht Hi Hf.
  unfold derived_metrics, py_lt, py_gt, size_class, popularity_class, activity_class.
  rewrite Hs, Ht, Hi, Hf. simpl.
  destruct (zs <? 1000); simpl; [|destruct (zs <? 10000); simpl];
    (destruct (zt <? 100); simpl; [|destruct (zt <? 1000); simpl]);
    (destruct (zi >? 10); simpl; [|destruct (zi >? 0); simpl]);
    reflexivity.
Qed.

(** Conversely a summary is only returned in that way. *)
Lemma derived_metrics_inv (language size_kb stars forks issues : value)
    (r : gmap string value) :
  derived_metrics language size_kb stars forks issues = Returned r →
  ∃ zs zt zi txt,
    as_int size_kb = Some zs ∧ as_int stars = Some zt ∧ as_int issues = Some zi ∧
    py_format language = Returned txt ∧
    r = metrics_dict language (size_class zs) (popularity_class zt)
          (activity_class zi) size_kb stars forks issues
          (summary_sentence (size_class zs) txt (popularity_class zt)).
Proof.
  intros H.
  destruct (as_int size_kb) as [zs|] eqn:Hs;
    [|unfold derived_metrics, py_lt in H; rewrite Hs in H; discriminate].
  destruct (as_int stars) as [zt|] eqn:Ht;
    [|unfold derived_metrics, py_lt in H; rewrite Hs, Ht in H; simpl in H;
      destruct (zs <? 1000); simpl in H; [|destruct (zs <? 10000)]; discriminate].
  destruct (as_int issues) as [zi|] eqn:Hi.
  2:{ unfold derived_metrics, py_lt, py_gt in H. rewrite Hs, Ht, Hi in H. simpl in H.
      destruct (zs <? 1000); simpl in H; [|destruct (zs <? 10000); simpl in H];
        (destruct (zt <? 100); simpl in H; [|destruct (zt <? 1000); simpl in H]);
        discriminate. }
  destruct (py_format language) as [txt|e] eqn:Hf.
  2:{ unfold derived_metrics, py_lt, py_gt in H. rewrite Hs, Ht, Hi, Hf in H. simpl in H.
      destruct (zs <? 1000); simpl in H; [|destruct (zs <? 10000); simpl in H];
        (destruct (zt <? 100); simpl in H; [|destruct (zt <? 1000); simpl in H]);
        (destruct (zi >? 10); simpl in H; [|destruct (zi >? 0); simpl in H]);
        discriminate. }
  exists zs, zt, zi, txt. repeat split; try reflexivity.
  rewrite (derived_metrics_ints _ _ _ _ _ zs zt zi txt Hs Ht Hi Hf) in H.
  congruence.
Qed.

(** ** Reading the returned dictionary *)

Section fields.
Variables (language size_kb stars forks issues : value).
Variables (project_size popularity activity summary : string).

Let r := metrics_dict language project_size popularity activity
           size_kb stars forks issues summary.

Lemma metrics_dict_fields :
  r !! "main_language" = Some language ∧
  r !! "project_size" = Some (VStr project_size) ∧
  r !! "popularity_level" = Some (VStr popularity) ∧
  r !! "activity_level" = Some (VStr activity) ∧
  r !! "repository_size_kb" = Some size_kb ∧
  r !! "stars" = Some stars ∧
  r !! "forks" = Some forks ∧
  r !! "open_issues" = Some issues ∧
  r !! "complexity_summary" = Some (VStr summary).
Proof. repeat split; reflexivity. Qed.

Lemma metrics_dict_dom : dom r = summary_keys.
Proof.
  subst r. unfold metrics_dict, summary_keys.
  rewrite !dom_insert_L, dom_empty_L. set_solver.
Qed.

Lemma metrics_dict_no_error : r !! "error" = None.
Proof. reflexivity. Qed.

Lemma metrics_dict_not_error : r ≠ error_dict.
Proof.
  intros H. assert (r !! "error" = error_dict !! "error") as E by (rewrite H; reflexivity).
  discriminate E.
Qed.
End fields.

(** A truthy argument for which the call returns is a non-empty dictionary
    whose three compared fields are integers, and the returned dictionary is
    the summary computed from them. *)
Lemma analyze_returned_truthy (o : object) (r : gmap string value) :
  truthy o = true → analyze_code_metrics o = Returned r →
  ∃ d zs zt zi txt,
    o = ODict d ∧ d ≠ ∅ ∧
    as_int (default (VInt 0) (d !! "size")) = Some zs ∧
    as_int (default (VInt 0) (d !! "stargazers_count")) = Some zt ∧
    as_int (default (VInt 0) (d !! "open_issues_count")) = Some zi ∧
    py_format (default (VStr "Unknown") (d !! "language")) = Returned txt ∧
    r = metrics_dict (default (VStr "Unknown") (d !! "language"))
          (size_class zs) (popularity_class zt) (activity_class zi)
          (default (VInt 0) (d !! "size"))
          (default (VInt 0) (d !! "stargazers_count"))
          (default (VInt 0) (d !! "forks_count"))
          (default (VInt 0) (d !! "open_issues_count"))
          (summary_sentence (size_class zs) txt (popularity_class zt)).
Proof.
  intros Ht Hr. destruct o as [v|l|d].
  - rewrite analyze_truthy_not_dict in Hr by (done || congruence). discriminate.
  - rewrite analyze_truthy_not_dict in Hr by (done || congruence). discriminate.
  - apply truthy_dict in Ht. rewrite (analyze_dict d Ht) in Hr.
    apply derived_metrics_inv in Hr as (zs & zt & zi & txt & Hs & Hst & Hi & Hf & ->).
    exists d, zs, zt, zi, txt. done.
Qed.

(** A well-formed descriptor has integers where integers are compared and a
    string where the language is formatted. *)
Lemma well_formed_fields (d : gmap string value) :
  well_formed d = true →
  ∃ zs zt zi txt,
    as_int (default (VInt 0) (d !! "size")) = Some zs ∧
    as_int (default (VInt 0) (d !! "stargazers_count")) = Some zt ∧
    as_int (default (VInt 0) (d !! "open_issues_count")) = Some zi ∧
    py_format (default (VStr "Unknown") (d !! "language")) = Returned txt ∧
    (∀ z, d !! "size" = Some (VInt z) → zs = z) ∧
    (∀ z, d !! "stargazers_count" = Some (VInt z) → zt = z) ∧
    (∀ z, d !! "open_issues_count" = Some (VInt z) → zi = z).
Proof.
  unfold well_formed, field_ok. rewrite !andb_true_iff.
  intros ((((Hl & Hs) & Ht) & _) & Hi).
  destruct (d !! "language") as [[| | |l]|]; try discriminate Hl;
    destruct (d !! "size") as [[| |zs|]|]; try discriminate Hs;
    destruct (d !! "stargazers_count") as [[| |zt|]|]; try discriminate Ht;
    destruct (d !! "open_issues_count") as [[| |zi|]|]; try discriminate Hi;
    simpl; do 4 eexists; repeat split; try reflexivity; congruence.
Qed.

Lemma size_class_cases (z : Z) :
  (size_class z = "Small" ↔ z < 1000) ∧
  (size_class z = "Medium" ↔ 1000 ≤ z < 10000) ∧
  (size_class z = "Large" ↔ 10000 ≤ z).
Proof.
  unfold size_class.
  destruct (Z.ltb_spec z 1000); [|destruct (Z.ltb_spec z 10000)];
    repeat split; intros; try lia; try discriminate; reflexivity.
Qed.

Lemma popularity_class_cases (z : Z) :
  (popularity_class z = "Low" ↔ z < 100) ∧
  (popularity_class z = "Medium" ↔ 100 ≤ z < 1000) ∧
  (popularity_class z = "High" ↔ 1000 ≤ z).
Proof.
  unfold popularity_class.
  destruct (Z.ltb_spec z 100); [|destruct (Z.ltb_spec z 1000)];
    repeat split; intros; try lia; try discriminate; reflexivity.
Qed.

Lemma activity_class_cases (z : Z) :
  (activity_class z = "Active" ↔ 10 < z) ∧
  (activity_class z = "Moderate" ↔ 0 < z ≤ 10) ∧
  (activity_class z = "Low" ↔ z ≤ 0).
Proof.
  unfold activity_class. rewrite !Z.gtb_ltb.
  destruct (Z.ltb_spec 10 z); [|destruct (Z.ltb_spec 0 z)];
    repeat split; intros; try lia; try discriminate; reflexivity.
Qed.

Lemma some_vstr_inj (s t : string) : Some (VStr s) = Some (VStr t) ↔ s = t.
Proof. split; congruence. Qed.

(** The same, read field by field. *)
Lemma analyze_returned_lookup (d : gmap string value) (r : gmap string value) :
  d ≠ ∅ → analyze_code_metrics (ODict d) = Returned r →
  ∃ zs zt zi txt,
    as_int (default (VInt 0) (d !! "size")) = Some zs ∧
    as_int (default (VInt 0) (d !! "stargazers_count")) = Some zt ∧
    as_int (default (VInt 0) (d !! "open_issues_count")) = Some zi ∧
    py_format (default (VStr "Unknown") (d !! "language")) = Returned txt ∧
    r !! "main_language" = Some (default (VStr "Unknown") (d !! "language")) ∧
    r !! "project_size" = Some (VStr (size_class zs)) ∧
    r !! "popularity_level" = Some (VStr (popularity_class zt)) ∧
    r !! "activity_level" = Some (VStr (activity_class zi)) ∧
    r !! "repository_size_kb" = Some (default (VInt 0) (d !! "size")) ∧
    r !! "stars" = Some (default (VInt 0) (d !! "stargazers_count")) ∧
    r !! "forks" = Some (default (VInt 0) (d !! "forks_count")) ∧
    r !! "open_issues" = Some (default (VInt 0) (d !! "open_issues_count")) ∧
    r !! "complexity_summary" =
      Some (VStr (summary_sentence (size_class zs) txt (popularity_class zt))).
Proof.
  intros Hd Hr. apply truthy_dict in Hd.
  destruct (analyze_returned_truthy _ r Hd Hr)
    as (d' & zs & zt & zi & txt & [= <-] & _ & Hs & Ht & Hi & Hf & ->).
  exists zs, zt, zi, txt. repeat split; assumption.
Qed.

(** A truthy argument on which the call returns is a dictionary. *)
Lemma analyze_returned_is_dict (o : object) (r : gmap string value) :
  truthy o = true → analyze_code_metrics o = Returned r →
  ∃ d, o = ODict d ∧ d ≠ ∅.
Proof.
  intros Ht Hr.
  destruct (analyze_returned_truthy o r Ht Hr) as (d & _ & _ & _ & _ & -> & Hd & _).
  eauto.
Qed.

(** ** The function on the inputs of the specification's test list *)

Example size_boundaries :
  field_of (with_counter "size" 0) "project_size" = Returned (Some (VStr "Small")) ∧
  field_of (with_counter "size" 999) "project_size" = Returned (Some (VStr "Small")) ∧
  field_of (with_counter "size" 1000) "project_size" = Returned (Some (VStr "Medium")) ∧
  field_of (with_counter "size" 9999) "project_size" = Returned (Some (VStr "Medium")) ∧
  field_of (with_counter "size" 10000) "project_size" = Returned (Some (VStr "Large")).
Proof. repeat split; reflexivity. Qed.

Example stars_boundaries :
  field_of (with_counter "stargazers_count" 0) "popularity_level" = Returned (Some (VStr "Low")) ∧
  field_of (with_counter "stargazers_count" 99) "popularity_level" = Returned (Some (VStr "Low")) ∧
  field_of (with_counter "stargazers_count" 100) "popularity_level" = Returned (Some (VStr "Medium")) ∧
  field_of (with_counter "stargazers_count" 999) "popularity_level" = Returned (Some (VStr "Medium")) ∧
  field_of (with_counter "stargazers_count" 1000) "popularity_level" = Returned (Some (VStr "High")).
Proof. repeat split; reflexivity. Qed.

Example issues_boundaries :
  field_of (with_counter "open_issues_count" 0) "activity_level" = Returned (Some (VStr "Low")) ∧
  field_of (with_counter "open_issues_count" 1) "activity_level" = Returned (Some (VStr "Moderate")) ∧
  field_of (with_counter "open_issues_count" 10) "activity_level" = Returned (Some (VStr "Moderate")) ∧
  field_of (with_counter "open_issues_count" 11) "activity_level" = Returned (Some (VStr "Active")).
Proof. repeat split; reflexivity. Qed.

Example none_is_rejected :
  analyze_code_metrics (OScalar VNone) = Returned error_dict.
Proof. reflexivity. Qed.

Example python_repository :
  analyze_code_metrics (ODict ex_python) = Returned ex_python_summary.
Proof. reflexivity. Qed.

Example negative_repository :
  analyze_code_metrics (ODict ex_negative) =
    Returned (metrics_dict (VStr "Unknown") "Small" "Low" "Low"
                (VInt (-5)) (VInt (-1)) (VInt 0) (VInt (-3))
                "Small Unknown project with low popularity").
Proof. reflexivity. Qed.

(** Outside the data model: a counter that is not a number, an argument that
    is not a dictionary. *)
Example ill_typed_inputs :
  analyze_code_metrics (ODict {[ "size" := VNone ]}) = Raised TypeError ∧
  analyze_code_metrics (ODict {[ "size" := VStr "12" ]}) = Raised TypeError ∧
  analyze_code_metrics (OList [VInt 1]) = Raised AttributeError ∧
  analyze_code_metrics (OScalar (VStr "repo")) = Raised AttributeError ∧
  field_of (ODict {[ "language" := VNone ]}) "complexity_summary" =
    Returned (Some (VStr "Small None project with low popularity")).
Proof. repeat split; reflexivity. Qed.

(** ** Properties of the specification *)


(** C1, as stated, fails: for the empty descriptor map the call does not
    return a summary with main_language "Unknown", project_size "Small",
    popularity_level "Low", activity_level "Low" and complexity_summary
    "Small Unknown project with low popularity"; the empty map is falsy and
    line 83 returns the error dictionary. *)
Lemma empty_descriptor_is_not_summarised :
  analyze_code_metrics (ODict ∅) = Returned error_dict ∧
  ¬ ∃ r, analyze_code_metrics (ODict ∅) = Returned r ∧
         r !! "main_language" = Some (VStr "Unknown") ∧
         r !! "project_size" = Some (VStr "Small") ∧
         r !! "popularity_level" = Some (VStr "Low") ∧
         r !! "activity_level" = Some (VStr "Low") ∧
         r !! "complexity_summary" =
           Some (VStr "Small Unknown project with low popularity").
Proof.
  split; [reflexivity|].
  intros (r & Hr & Hl & _).
  assert (analyze_code_metrics (ODict ∅) = Returned error_dict) as E by reflexivity.
  rewrite E in Hr. injection Hr as <-.
  unfold error_dict in Hl. rewrite lookup_singleton_ne in Hl by discriminate.
  discriminate Hl.
Qed.

(** C1, amended: the empty descriptor map gives the error dictionary, and
    every non-empty descriptor map holding none of the five consumed keys
    gives the full summary built from the defaults: main_language "Unknown",
    project_size "Small", popularity_level "Low", activity_level "Low", the
    four counters 0 and complexity_summary
    "Small Unknown project with low popularity". *)
Theorem defaults_summary (d : gmap string value) :
  d ≠ ∅ → (∀ k, k ∈ consumed_keys → d !! k = None) →
  analyze_code_metrics (ODict ∅) = Returned error_dict ∧
  analyze_code_metrics (ODict d) = Returned default_summary.
Proof.
  intros Hd Hk. split; [reflexivity|].
  rewrite (analyze_dict d Hd).
  rewrite !Hk by (unfold consumed_keys; set_solver).
  reflexivity.
Qed.

Lemma defaults_summary_witness :
  analyze_code_metrics (ODict ∅) = Returned error_dict ∧
  analyze_code_metrics (ODict ex_unrelated) = Returned default_summary.
Proof.
  apply (defaults_summary ex_unrelated).
  - apply (dict_nonempty _ "name" (VStr "demo")). reflexivity.
  - intros k Hk. unfold consumed_keys in Hk.
    repeat (apply elem_of_cons in Hk as [->|Hk]; [reflexivity|]).
    apply elem_of_nil in Hk. destruct Hk.
Defined.

(** C2: the call returns exactly the dictionary
    {error: "No repository data provided"} for every falsy argument ([None],
    the empty map, and the other empty values), and for no other argument:
    what it returns for a truthy argument is a summary, a dictionary with the
    nine keys of a summary and without the key "error". *)
Theorem error_dict_iff_falsy (o : object) :
  (analyze_code_metrics o = Returned error_dict ↔ truthy o = false) ∧
  (∀ r, analyze_code_metrics o = Returned r →
        truthy o = true → dom r = summary_keys ∧ r !! "error" = None).
Proof.
  assert (∀ r, analyze_code_metrics o = Returned r → truthy o = true →
               dom r = summary_keys ∧ r !! "error" = None ∧ r ≠ error_dict) as Hsum.
  { intros r Hr Ht.
    destruct (analyze_returned_truthy o r Ht Hr)
      as (d & zs & zt & zi & txt & _ & _ & _ & _ & _ & _ & ->).
    split; [apply metrics_dict_dom|].
    split; [apply metrics_dict_no_error | apply metrics_dict_not_error]. }
  split; [split|].
  - intros Hr. destruct (truthy o) eqn:Ht; [|reflexivity].
    destruct (Hsum _ Hr eq_refl) as (_ & _ & Hne). destruct (Hne eq_refl).
  - apply analyze_falsy.
  - intros r Hr Ht. destruct (Hsum r Hr Ht) as (Hdom & Hnone & _). done.
Qed.

Lemma error_dict_iff_falsy_witness :
  analyze_code_metrics (OScalar VNone) = Returned error_dict ∧
  dom ex_python_summary = summary_keys ∧ ex_python_summary !! "error" = None.
Proof.
  split.
  - apply (error_dict_iff_falsy (OScalar VNone)). reflexivity.
  - apply (error_dict_iff_falsy (ODict ex_python)); reflexivity.
Defined.

(** C3: for a truthy descriptor on which the call returns, project_size is
    "Small" exactly when size_kb < 1000, "Medium" exactly when
    1000 <= size_kb < 10000 and "Large" exactly when size_kb >= 10000, where
    size_kb is the integer read under "size" (0 when absent). *)
Theorem project_size_thresholds (o : object) (r : gmap string value) :
  truthy o = true → analyze_code_metrics o = Returned r →
  ∃ size_kb z,
    py_get o "size" (VInt 0) = Returned size_kb ∧ as_int size_kb = Some z ∧
    (r !! "project_size" = Some (VStr "Small") ↔ z < 1000) ∧
    (r !! "project_size" = Some (VStr "Medium") ↔ 1000 ≤ z < 10000) ∧
    (r !! "project_size" = Some (VStr "Large") ↔ 10000 ≤ z).
Proof.
  intros Ht Hr.
  destruct (analyze_returned_is_dict o r Ht Hr) as (d & -> & Hd).
  destruct (analyze_returned_lookup d r Hd Hr)
    as (zs & zt & zi & txt & Hs & _ & _ & _ & _ & -> & _).
  exists (default (VInt 0) (d !! "size")), zs.
  split; [reflexivity|]. split; [exact Hs|].
  rewrite !some_vstr_inj. apply size_class_cases.
Qed.


Lemma project_size_thresholds_witness :
  ∃ size_kb z,
    py_get (ODict ex_python) "size" (VInt 0) = Returned size_kb ∧
    as_int size_kb = Some z ∧
    (ex_python_summary !! "project_size" = Some (VStr "Small") ↔ z < 1000) ∧
    (ex_python_summary !! "project_size" = Some (VStr "Medium") ↔ 1000 ≤ z < 10000) ∧
    (ex_python_summary !! "project_size" = Some (VStr "Large") ↔ 10000 ≤ z).
Proof.
  apply (project_size_thresholds (ODict ex_python) ex_python_summary);
    reflexivity.
Defined.

(** C4: for a truthy descriptor on which the call returns, popularity_level
    is "Low" exactly when stars < 100, "Medium" exactly when
    100 <= stars < 1000 and "High" exactly when stars >= 1000, where stars is
    the integer read under "stargazers_count" (0 when absent). *)
Theorem popularity_thresholds (o : object) (r : gmap string value) :
  truthy o = true → analyze_code_metrics o = Returned r →
  ∃ stars z,
    py_get o "stargazers_count" (VInt 0) = Returned stars ∧ as_int stars = Some z ∧
    (r !! "popularity_level" = Some (VStr "Low") ↔ z < 100) ∧
    (r !! "popularity_level" = Some (VStr "Medium") ↔ 100 ≤ z < 1000) ∧
    (r !! "popularity_level" = Some (VStr "High") ↔ 1000 ≤ z).
Proof.
  intros Ht Hr.
  destruct (analyze_returned_is_dict o r Ht Hr) as (d & -> & Hd).
  destruct (analyze_returned_lookup d r Hd Hr)
    as (zs & zt & zi & txt & _ & Hst & _ & _ & _ & _ & -> & _).
  exists (default (VInt 0) (d !! "stargazers_count")), zt.
  split; [reflexivity|]. split; [exact Hst|].
  rewrite !some_vstr_inj. apply popularity_class_cases.
Qed.

Lemma popularity_thresholds_witness :
  ∃ stars z,
    py_get (ODict ex_python) "stargazers_count" (VInt 0) = Returned stars ∧
    as_int stars = Some z ∧
    (ex_python_summary !! "popularity_level" = Some (VStr "Low") ↔ z < 100) ∧
    (ex_python_summary !! "popularity_level" = Some (VStr "Medium") ↔ 100 ≤ z < 1000) ∧
    (ex_python_summary !! "popularity_level" = Some (VStr "High") ↔ 1000 ≤ z).
Proof.
  apply (popularity_thresholds (ODict ex_python) ex_python_summary);
    reflexivity.
Defined.

(** C5, as stated, fails: "Low" is not returned exactly when
    open_issues_count == 0.  On {open_issues_count: -3} the call returns a
    summary whose activity_level is "Low" (both tests of line 107 fail and
    the last alternative is taken), and -3 is not 0. *)
Lemma negative_issues_are_low :
  analyze_code_metrics (ODict ex_negative_issues) = Returned ex_negative_issues_summary ∧
  py_get (ODict ex_negative_issues) "open_issues_count" (VInt 0) = Returned (VInt (-3)) ∧
  ex_negative_issues_summary !! "activity_level" = Some (VStr "Low") ∧
  ¬ (∀ (o : object) (r : gmap string value) (z : Z),
       truthy o = true → analyze_code_metrics o = Returned r →
       py_get o "open_issues_count" (VInt 0) = Returned (VInt z) →
       (r !! "activity_level" = Some (VStr "Low") ↔ z = 0)).
Proof.
  assert (analyze_code_metrics (ODict ex_negative_issues)
          = Returned ex_negative_issues_summary) as Hr by reflexivity.
  split; [exact Hr|]. split; [reflexivity|]. split; [reflexivity|].
  intros H.
  specialize (H (ODict ex_negative_issues) ex_negative_issues_summary (-3)
                eq_refl Hr eq_refl).
  destruct H as [H _]. specialize (H eq_refl). discriminate H.
Qed.

(** C5, amended: for a truthy descriptor on which the call returns,
    activity_level is "Active" exactly when open_issues_count > 10,
    "Moderate" exactly when 0 < open_issues_count <= 10 and "Low" exactly
    when open_issues_count <= 0, hence exactly when it is 0 among the
    non-negative counts.  The count is the integer read under
    "open_issues_count" (0 when absent). *)
Theorem activity_thresholds (o : object) (r : gmap string value) :
  truthy o = true → analyze_code_metrics o = Returned r →
  ∃ issues z,
    py_get o "open_issues_count" (VInt 0) = Returned issues ∧ as_int issues = Some z ∧
    (r !! "activity_level" = Some (VStr "Active") ↔ 10 < z) ∧
    (r !! "activity_level" = Some (VStr "Moderate") ↔ 0 < z ≤ 10) ∧
    (r !! "activity_level" = Some (VStr "Low") ↔ z ≤ 0) ∧
    (0 ≤ z → (r !! "activity_level" = Some (VStr "Low") ↔ z = 0)).
Proof.
  intros Ht Hr.
  destruct (analyze_returned_is_dict o r Ht Hr) as (d & -> & Hd).
  destruct (analyze_returned_lookup d r Hd Hr)
    as (zs & zt & zi & txt & _ & _ & Hi & _ & _ & _ & _ & -> & _).
  exists (default (VInt 0) (d !! "open_issues_count")), zi.
  split; [reflexivity|]. split; [exact Hi|].
  rewrite !some_vstr_inj.
  destruct (activity_class_cases zi) as (Ha & Hm & Hl).
  split; [exact Ha|]. split; [exact Hm|]. split; [exact Hl|].
  intros Hz. rewrite Hl. lia.
Qed.

Lemma activity_thresholds_witness :
  ∃ issues z,
    py_get (ODict ex_negative_issues) "open_issues_count" (VInt 0) = Returned issues ∧
    as_int issues = Some z ∧
    (ex_negative_issues_summary !! "activity_level" = Some (VStr "Active") ↔ 10 < z) ∧
    (ex_negative_issues_summary !! "activity_level" = Some (VStr "Moderate") ↔ 0 < z ≤ 10) ∧
    (ex_negative_issues_summary !! "activity_level" = Some (VStr "Low") ↔ z ≤ 0) ∧
    (0 ≤ z → (ex_negative_issues_summary !! "activity_level" = Some (VStr "Low") ↔ z = 0)).
Proof.
  apply (activity_thresholds (ODict ex_negative_issues) ex_negative_issues_summary);
    reflexivity.
Defined.

(** C6: for a truthy descriptor on which the call returns, complexity_summary
    is the string "{project_size} {main_language} project with
    {popularity_level lower-cased} popularity" made from the fields
    project_size, main_language and popularity_level of the same result; a
    main_language that is a string enters the sentence as it is. *)
Theorem complexity_summary_format (o : object) (r : gmap string value) :
  truthy o = true → analyze_code_metrics o = Returned r →
  ∃ project_size main_language popularity_level language_text,
    r !! "project_size" = Some (VStr project_size) ∧
    r !! "main_language" = Some main_language ∧
    r !! "popularity_level" = Some (VStr popularity_level) ∧
    py_format main_language = Returned language_text ∧
    (∀ s, main_language = VStr s → language_text = s) ∧
    r !! "complexity_summary" =
      Some (VStr (project_size +:+ " " +:+ language_text +:+ " project with "
                  +:+ py_lower popularity_level +:+ " popularity")).
Proof.
  intros Ht Hr.
  destruct (analyze_returned_is_dict o r Ht Hr) as (d & -> & Hd).
  destruct (analyze_returned_lookup d r Hd Hr)
    as (zs & zt & zi & txt & _ & _ & _ & Hf & Hl & Hp & Hpop & _ & _ & _ & _ & _ & Hc).
  exists (size_class zs), (default (VStr "Unknown") (d !! "language")),
         (popularity_class zt), txt.
  repeat split; try assumption.
  intros s Hs. rewrite Hs in Hf. simpl in Hf. congruence.
Qed.

Lemma complexity_summary_format_witness :
  ∃ project_size main_language popularity_level language_text,
    ex_python_summary !! "project_size" = Some (VStr project_size) ∧
    ex_python_summary !! "main_language" = Some main_language ∧
    ex_python_summary !! "popularity_level" = Some (VStr popularity_level) ∧
    py_format main_language = Returned language_text ∧
    (∀ s, main_language = VStr s → language_text = s) ∧
    ex_python_summary !! "complexity_summary" =
      Some (VStr (project_size +:+ " " +:+ language_text +:+ " project with "
                  +:+ py_lower popularity_level +:+ " popularity")).
Proof.
  apply (complexity_summary_format (ODict ex_python) ex_python_summary);
    reflexivity.
Defined.

(** C7: on a truthy descriptor the call depends on the five keys language,
    size, stargazers_count, forks_count and open_issues_count only: another
    truthy descriptor with the same entries under these keys has the same
    outcome.  When the call returns, main_language is the value under
    language ("Unknown" when absent) and repository_size_kb, stars, forks and
    open_issues are the values under size, stargazers_count, forks_count and
    open_issues_count (0 when absent), unchanged; and on a well-formed
    descriptor the call does return such a dictionary. *)
Theorem consumed_fields_pass_through (d : gmap string value) :
  d ≠ ∅ →
  (∀ d' : gmap string value,
     d' ≠ ∅ → (∀ k, k ∈ consumed_keys → d' !! k = d !! k) →
     analyze_code_metrics (ODict d') = analyze_code_metrics (ODict d)) ∧
  (∀ r : gmap string value,
     analyze_code_metrics (ODict d) = Returned r →
     r !! "main_language" = Some (default (VStr "Unknown") (d !! "language")) ∧
     r !! "repository_size_kb" = Some (default (VInt 0) (d !! "size")) ∧
     r !! "stars" = Some (default (VInt 0) (d !! "stargazers_count")) ∧
     r !! "forks" = Some (default (VInt 0) (d !! "forks_count")) ∧
     r !! "open_issues" = Some (default (VInt 0) (d !! "open_issues_count"))) ∧
  (well_formed d = true →
   ∃ r : gmap string value,
     analyze_code_metrics (ODict d) = Returned r ∧
     r !! "main_language" = Some (default (VStr "Unknown") (d !! "language")) ∧
     r !! "repository_size_kb" = Some (default (VInt 0) (d !! "size")) ∧
     r !! "stars" = Some (default (VInt 0) (d !! "stargazers_count")) ∧
     r !! "forks" = Some (default (VInt 0) (d !! "forks_count")) ∧
     r !! "open_issues" = Some (default (VInt 0) (d !! "open_issues_count"))).
Proof.
  intros Hd.
  assert (∀ r : gmap string value,
     analyze_code_metrics (ODict d) = Returned r →
     r !! "main_language" = Some (default (VStr "Unknown") (d !! "language")) ∧
     r !! "repository_size_kb" = Some (default (VInt 0) (d !! "size")) ∧
     r !! "stars" = Some (default (VInt 0) (d !! "stargazers_count")) ∧
     r !! "forks" = Some (default (VInt 0) (d !! "forks_count")) ∧
     r !! "open_issues" = Some (default (VInt 0) (d !! "open_issues_count")))
    as Hfields.
  { intros r Hr.
    destruct (analyze_returned_lookup d r Hd Hr)
      as (zs & zt & zi & txt & _ & _ & _ & _ & Hl & _ & _ & _ & Hs & Hst & Hf & Hi & _).
    repeat split; assumption. }
  split; [|split].
  - clear Hfields. intros d' Hd' Hk.
    rewrite (analyze_dict d Hd), (analyze_dict d' Hd').
    rewrite !Hk by (unfold consumed_keys; set_solver). reflexivity.
  - exact Hfields.
  - intros Hw.
    destruct (well_formed_fields d Hw) as (zs & zt & zi & txt & Hs & Ht & Hi & Hf & _).
    eexists. split.
    + rewrite (analyze_dict d Hd).
      apply (derived_metrics_ints _ _ _ _ _ zs zt zi txt Hs Ht Hi Hf).
    + apply Hfields. rewrite (analyze_dict d Hd).
      apply (derived_metrics_ints _ _ _ _ _ zs zt zi txt Hs Ht Hi Hf).
Qed.

Lemma consumed_fields_pass_through_witness :
  analyze_code_metrics (ODict ex_python_named) = analyze_code_metrics (ODict ex_python) ∧
  analyze_code_metrics (ODict ex_python) = Returned ex_python_summary ∧
  ex_python_summary !! "main_language" = Some (VStr "Python") ∧
  ex_python_summary !! "repository_size_kb" = Some (VInt 5000) ∧
  ex_python_summary !! "stars" = Some (VInt 500) ∧
  ex_python_summary !! "forks" = Some (VInt 10) ∧
  ex_python_summary !! "open_issues" = Some (VInt 3) ∧
  well_formed ex_python = true ∧
  ∃ r : gmap string value,
    analyze_code_metrics (ODict ex_python) = Returned r ∧
    r !! "main_language" = Some (default (VStr "Unknown") (ex_python !! "language")) ∧
    r !! "repository_size_kb" = Some (default (VInt 0) (ex_python !! "size")) ∧
    r !! "stars" = Some (default (VInt 0) (ex_python !! "stargazers_count")) ∧
    r !! "forks" = Some (default (VInt 0) (ex_python !! "forks_count")) ∧
    r !! "open_issues" = Some (default (VInt 0) (ex_python !! "open_issues_count")).
Proof.
  destruct (consumed_fields_pass_through ex_python) as (Hsame & Hfields & Hreturns).
  { apply (dict_nonempty _ "size" (VInt 5000)). reflexivity. }
  assert (analyze_code_metrics (ODict ex_python) = Returned ex_python_summary) as Hr
    by reflexivity.
  split.
  - apply Hsame.
    + apply (dict_nonempty _ "name" (VStr "demo")). reflexivity.
    + intros k Hk. unfold consumed_keys in Hk.
      repeat (apply elem_of_cons in Hk as [->|Hk]; [reflexivity|]).
      apply elem_of_nil in Hk. destruct Hk.
  - split; [exact Hr|].
    assert (well_formed ex_python = true) as Hw by reflexivity.
    destruct (Hfields ex_python_summary Hr) as (Hl & Hs & Hst & Hf & Hi).
    repeat split; try assumption. exact (Hreturns Hw).
Defined.

(** C8: on every well-formed descriptor map, whichever of its keys are
    missing, the call returns a dictionary; no exception is raised. *)
Theorem total_on_well_formed (d : gmap string value) :
  well_formed d = true → ∃ r, analyze_code_metrics (ODict d) = Returned r.
Proof.
  intros Hw. destruct (decide (d = ∅)) as [->|Hd].
  - exists error_dict. reflexivity.
  - destruct (well_formed_fields d Hw) as (zs & zt & zi & txt & Hs & Ht & Hi & Hf & _).
    rewrite (analyze_dict d Hd).
    rewrite (derived_metrics_ints _ _ _ _ _ zs zt zi txt Hs Ht Hi Hf). eauto.
Qed.

Lemma total_on_well_formed_witness :
  ∃ r, analyze_code_metrics (ODict {[ "size" := VInt 1000 ]}) = Returned r.
Proof. apply (total_on_well_formed {[ "size" := VInt 1000 ]}). reflexivity. Defined.

(** C10: a well-formed descriptor whose counters are negative integers is
    answered like any other: the call returns, and a negative size gives
    project_size "Small", a negative stargazers_count gives popularity_level
    "Low" and a negative open_issues_count gives activity_level "Low". *)
Theorem negative_counts_classified (d : gmap string value) :
  well_formed d = true →
  ∃ r, analyze_code_metrics (ODict d) = Returned r ∧
       (∀ z, d !! "size" = Some (VInt z) → z < 0 →
             r !! "project_size" = Some (VStr "Small")) ∧
       (∀ z, d !! "stargazers_count" = Some (VInt z) → z < 0 →
             r !! "popularity_level" = Some (VStr "Low")) ∧
       (∀ z, d !! "open_issues_count" = Some (VInt z) → z < 0 →
             r !! "activity_level" = Some (VStr "Low")).
Proof.
  intros Hw. destruct (decide (d = ∅)) as [->|Hd].
  - exists error_dict. split; [reflexivity|].
    repeat split; intros z Hz; rewrite lookup_empty in Hz; discriminate.
  - destruct (well_formed_fields d Hw)
      as (zs & zt & zi & txt & Hs & Ht & Hi & Hf & Es & Et & Ei).
    eexists. split.
    { rewrite (analyze_dict d Hd).
      apply (derived_metrics_ints _ _ _ _ _ zs zt zi txt Hs Ht Hi Hf). }
    repeat split; intros z Hz Hneg.
    + apply Es in Hz as ->.
      etransitivity; [apply metrics_dict_fields|].
      apply some_vstr_inj, size_class_cases. lia.
    + apply Et in Hz as ->.
      etransitivity; [apply metrics_dict_fields|].
      apply some_vstr_inj, popularity_class_cases. lia.
    + apply Ei in Hz as ->.
      etransitivity; [apply metrics_dict_fields|].
      apply some_vstr_inj, activity_class_cases. lia.
Qed.

Lemma negative_counts_classified_witness :
  ∃ r, analyze_code_metrics (ODict ex_negative) = Returned r ∧
       (∀ z, ex_negative !! "size" = Some (VInt z) → z < 0 →
             r !! "project_size" = Some (VStr "Small")) ∧
       (∀ z, ex_negative !! "stargazers_count" = Some (VInt z) → z < 0 →
             r !! "popularity_level" = Some (VStr "Low")) ∧
       (∀ z, ex_negative !! "open_issues_count" = Some (VInt z) → z < 0 →
             r !! "activity_level" = Some (VStr "Low")).
Proof. apply (negative_counts_classified ex_negative). reflexivity. Defined.

(** ** The call on the heap *)


(** The heap-level call reads the descriptor as the function on objects
    does, and its only write is the allocation of the returned dictionary. *)
Lemma analyze_heap_refines (h : gmap loc object) (l : loc) (o : object) :
  h !! l = Some o →
  analyze_code_metrics_heap l h =
    match analyze_code_metrics o with
    | Returned r => (<[ fresh (dom h) := ODict r ]> h, Returned (fresh (dom h)))
    | Raised e => (h, Raised e)
    end.
Proof.
  intros Hl.
  unfold analyze_code_metrics_heap, analyze_code_metrics, h_truthy, h_get, h_deref,
    h_lift, h_new_dict, mbind, hcomp_bind, mret, hcomp_ret.
  rewrite Hl. destruct (truthy o); simpl; [|reflexivity].
  rewrite Hl. destruct o as [v|lst|d]; simpl; try reflexivity.
  repeat (rewrite Hl; simpl).
  destruct (derived_metrics _ _ _ _ _); reflexivity.
Qed.

(** Allocation leaves every object of the heap as it was. *)
Lemma alloc_preserves (h : gmap loc object) (o : object) :
  h ⊆ <[ fresh (dom h) := o ]> h.
Proof. apply insert_subseteq, not_elem_of_dom, is_fresh. Qed.

(** C9: called twice in a row through the same reference, the function
    gives the same output both times (dictionaries with the same content, or
    the same exception), that output being the one the function on objects
    computes; every object of the heap, the descriptor among them, is after
    each call what it was before, the only change being the new dictionary
    returned. *)
Theorem call_twice_same_output (h : gmap loc object) (l : loc) (o : object) :
  h !! l = Some o →
  ∃ h1 out1 h2 out2,
    analyze_code_metrics_heap l h = (h1, out1) ∧
    analyze_code_metrics_heap l h1 = (h2, out2) ∧
    result_of (h1, out1) = analyze_code_metrics o ∧
    result_of (h2, out2) = result_of (h1, out1) ∧
    h ⊆ h1 ∧ h1 ⊆ h2 ∧
    h1 !! l = Some o ∧ h2 !! l = Some o ∧
    (h1 = h ∨ ∃ r, h1 = <[ fresh (dom h) := ODict r ]> h) ∧
    (h2 = h1 ∨ ∃ r, h2 = <[ fresh (dom h1) := ODict r ]> h1).
Proof.
  intros Hl.
  assert (∀ h0 : gmap loc object, h0 !! l = Some o →
            ∃ h' out, analyze_code_metrics_heap l h0 = (h', out) ∧
                      result_of (h', out) = analyze_code_metrics o ∧
                      h0 ⊆ h' ∧
                      (h' = h0 ∨ ∃ r, h' = <[ fresh (dom h0) := ODict r ]> h0))
    as Hcall.
  { intros h0 H0. rewrite (analyze_heap_refines h0 l o H0).
    destruct (analyze_code_metrics o) as [r|e].
    - do 2 eexists. split; [reflexivity|]. split.
      + unfold result_of. simpl. rewrite lookup_insert_eq. reflexivity.
      + split; [apply alloc_preserves | right; eauto].
    - do 2 eexists. split; [reflexivity|]. split; [reflexivity|].
      split; [reflexivity | left; reflexivity]. }
  destruct (Hcall h Hl) as (h1 & out1 & E1 & R1 & S1 & A1).
  assert (h1 !! l = Some o) as Hl1 by (eapply lookup_weaken; eassumption).
  destruct (Hcall h1 Hl1) as (h2 & out2 & E2 & R2 & S2 & A2).
  assert (h2 !! l = Some o) as Hl2 by (eapply lookup_weaken; eassumption).
  exists h1, out1, h2, out2. repeat split; try assumption. congruence.
Qed.

Lemma call_twice_same_output_witness :
  ∃ h1 out1 h2 out2,
    analyze_code_metrics_heap 1%positive ex_heap = (h1, out1) ∧
    analyze_code_metrics_heap 1%positive h1 = (h2, out2) ∧
    result_of (h1, out1) = analyze_code_metrics (ODict ex_python) ∧
    result_of (h2, out2) = result_of (h1, out1) ∧
    ex_heap ⊆ h1 ∧ h1 ⊆ h2 ∧
    h1 !! 1%positive = Some (ODict ex_python) ∧
    h2 !! 1%positive = Some (ODict ex_python) ∧
    (h1 = ex_heap ∨ ∃ r, h1 = <[ fresh (dom ex_heap) := ODict r ]> ex_heap) ∧
    (h2 = h1 ∨ ∃ r, h2 = <[ fresh (dom h1) := ODict r ]> h1).
Proof. apply (call_twice_same_output ex_heap 1%positive (ODict ex_python)). reflexivity. Defined.

(** ** Behaviour outside the specification *)

(** [format] raises nothing but [ValueError]. *)
Lemma py_format_raised (v : value) (e : exn) :
  py_format v = Raised e → e = ValueError.
Proof.
  destruct v as [|b|z|s]; simpl; try discriminate.
  destruct (Z.abs z <? 10 ^ int_max_str_digits); congruence.
Qed.

(** Lines 93 to 119 in one table: a comparison with a value that is not a
    number raises [TypeError]; otherwise the language is formatted and the
    summary returned. *)
Lemma derived_metrics_cases (language size_kb stars forks issues : value) :
  derived_metrics language size_kb stars forks issues =
    match as_int size_kb with
    | Some zs =>
        match as_int stars with
        | Some zt =>
            match as_int issues with
            | Some zi =>
                match py_format language with
                | Returned txt =>
                    Returned (metrics_dict language (size_class zs) (popularity_class zt)
                                (activity_class zi) size_kb stars forks issues
                                (summary_sentence (size_class zs) txt (popularity_class zt)))
                | Raised e => Raised e
                end
            | None => Raised TypeError
            end
        | None => Raised TypeError
        end
    | None => Raised TypeError
    end.
Proof.
  destruct (as_int size_kb) as [zs|] eqn:Hs.
  2:{ unfold derived_metrics, py_lt. rewrite Hs. reflexivity. }
  destruct (as_int stars) as [zt|] eqn:Ht.
  2:{ unfold derived_metrics, py_lt. rewrite Hs, Ht. simpl.
      destruct (zs <? 1000); simpl; [|destruct (zs <? 10000)]; reflexivity. }
  destruct (as_int issues) as [zi|] eqn:Hi.
  2:{ unfold derived_metrics, py_lt, py_gt. rewrite Hs, Ht, Hi. simpl.
      destruct (zs <? 1000); simpl; [|destruct (zs <? 10000); simpl];
        (destruct (zt <? 100); simpl; [|destruct (zt <? 1000); simpl]);
        reflexivity. }
  destruct (py_format language) as [txt|e] eqn:Hf.
  - apply (derived_metrics_ints _ _ _ _ _ zs zt zi txt Hs Ht Hi Hf).
  - unfold derived_metrics, py_lt, py_gt. rewrite Hs, Ht, Hi, Hf. simpl.
    destruct (zs <? 1000); simpl; [|destruct (zs <? 10000); simpl];
      (destruct (zt <? 100); simpl; [|destruct (zt <? 1000); simpl]);
      (destruct (zi >? 10); simpl; [|destruct (zi >? 0); simpl]);
      reflexivity.
Qed.

(** X1: the call raises AttributeError exactly on the arguments that are
    truthy and not a dictionary (a non-empty list, a non-empty string, a
    number other than 0, True): line 86 calls [get] on them.  A dictionary
    never raises it. *)
Theorem attribute_error_iff_truthy_non_dict (o : object) :
  analyze_code_metrics o = Raised AttributeError ↔
  truthy o = true ∧ ∀ d, o ≠ ODict d.
Proof.
  split.
  - intros H. destruct (truthy o) eqn:Ht.
    2:{ rewrite (analyze_falsy o Ht) in H. discriminate. }
    split; [reflexivity|]. intros d ->.
    apply truthy_dict in Ht. rewrite (analyze_dict d Ht), derived_metrics_cases in H.
    repeat match type of H with
           | match ?x with _ => _ end = _ => destruct x eqn:?
           end; try discriminate.
    injection H as ->.
    match goal with E : py_format _ = Raised _ |- _ => apply py_format_raised in E end.
    discriminate.
  - intros [Ht Hd]. apply analyze_truthy_not_dict; assumption.
Qed.

(** X2: on a non-empty dictionary the call raises TypeError exactly when the
    value under size, stargazers_count or open_issues_count (0 when the key
    is absent) is not a number, that is None or a string; the values under
    language and forks_count never cause it. *)
Theorem type_error_iff_compared_not_number (d : gmap string value) :
  d ≠ ∅ →
  (analyze_code_metrics (ODict d) = Raised TypeError ↔
   ∃ k, k ∈ compared_keys ∧ as_int (default (VInt 0) (d !! k)) = None).
Proof.
  intros Hd. rewrite (analyze_dict d Hd), derived_metrics_cases.
  unfold compared_keys. split.
  - intros H.
    destruct (as_int (default (VInt 0) (d !! "size"))) eqn:Hs;
      [|exists "size"; split; [set_solver | assumption]].
    destruct (as_int (default (VInt 0) (d !! "stargazers_count"))) eqn:Ht;
      [|exists "stargazers_count"; split; [set_solver | assumption]].
    destruct (as_int (default (VInt 0) (d !! "open_issues_count"))) eqn:Hi;
      [|exists "open_issues_count"; split; [set_solver | assumption]].
    destruct (py_format _) as [txt|e] eqn:Hf; [discriminate|].
    injection H as ->. apply py_format_raised in Hf. discriminate.
  - intros (k & Hk & Hnone).
    repeat (apply elem_of_cons in Hk as [->|Hk];
            [rewrite Hnone; repeat (destruct (as_int _)); reflexivity|]).
    apply elem_of_nil in Hk. destruct Hk.
Qed.

Lemma type_error_iff_compared_not_number_witness :
  analyze_code_metrics (ODict ex_bad_size) = Raised TypeError ↔
  ∃ k, k ∈ compared_keys ∧ as_int (default (VInt 0) (ex_bad_size !! k)) = None.
Proof.
  apply (type_error_iff_compared_not_number ex_bad_size).
  apply (dict_nonempty _ "size" (VStr "12")). reflexivity.
Defined.

(** Writing the entry forks of a summary. *)
Lemma metrics_dict_set_forks (language size_kb stars forks issues v : value)
    (project_size popularity activity summary : string) :
  <[ "forks" := v ]>
    (metrics_dict language project_size popularity activity
       size_kb stars forks issues summary) =
  metrics_dict language project_size popularity activity
    size_kb stars v issues summary.
Proof. reflexivity. Qed.

(** X3: forks_count is never inspected.  On a non-empty descriptor, putting
    any value at all under forks_count (None or a string included) changes
    neither whether the call raises nor any entry of the summary other than
    forks, which holds that value. *)
Theorem forks_count_only_sets_forks (d : gmap string value) (v : value) :
  d ≠ ∅ →
  analyze_code_metrics (ODict (<[ "forks_count" := v ]> d)) =
    match analyze_code_metrics (ODict d) with
    | Returned r => Returned (<[ "forks" := v ]> r)
    | Raised e => Raised e
    end.
Proof.
  intros Hd.
  rewrite (analyze_dict d Hd), (analyze_dict _ (insert_non_empty d "forks_count" v)).
  rewrite lookup_insert_eq, !lookup_insert_ne by discriminate. simpl.
  rewrite !derived_metrics_cases.
  destruct (as_int (default (VInt 0) (d !! "size"))); [|reflexivity].
  destruct (as_int (default (VInt 0) (d !! "stargazers_count"))); [|reflexivity].
  destruct (as_int (default (VInt 0) (d !! "open_issues_count"))); [|reflexivity].
  destruct (py_format _); [|reflexivity].
  rewrite metrics_dict_set_forks. reflexivity.
Qed.

Lemma forks_count_only_sets_forks_witness :
  analyze_code_metrics (ODict (<[ "forks_count" := VNone ]> ex_python)) =
    match analyze_code_metrics (ODict ex_python) with
    | Returned r => Returned (<[ "forks" := VNone ]> r)
    | Raised e => Raised e
    end.
Proof.
  apply (forks_count_only_sets_forks ex_python VNone).
  apply (dict_nonempty _ "size" (VInt 5000)). reflexivity.
Defined.

(** X4: main_language, project_size, popularity_level and complexity_summary
    are computed from language, size and stargazers_count alone: two
    non-empty descriptors that agree under these three keys and on which the
    call returns get the same four entries, whatever their forks_count and
    open_issues_count are. *)
Theorem summary_ignores_forks_and_issues (d d' r r' : gmap string value) :
  d ≠ ∅ → d' ≠ ∅ →
  (∀ k, k ∈ summary_input_keys → d' !! k = d !! k) →
  analyze_code_metrics (ODict d) = Returned r →
  analyze_code_metrics (ODict d') = Returned r' →
  r' !! "main_language" = r !! "main_language" ∧
  r' !! "project_size" = r !! "project_size" ∧
  r' !! "popularity_level" = r !! "popularity_level" ∧
  r' !! "complexity_summary" = r !! "complexity_summary".
Proof.
  intros Hd Hd' Hk Hr Hr'.
  destruct (analyze_returned_lookup d r Hd Hr)
    as (zs & zt & zi & txt & Hs & Ht & _ & Hf & -> & -> & -> & _ & _ & _ & _ & _ & ->).
  destruct (analyze_returned_lookup d' r' Hd' Hr')
    as (zs' & zt' & zi' & txt' & Hs' & Ht' & _ & Hf' & -> & -> & -> & _ & _ & _ & _ & _ & ->).
  rewrite !Hk in * by (unfold summary_input_keys; set_solver).
  assert (zs' = zs) as -> by congruence.
  assert (zt' = zt) as -> by congruence.
  assert (txt' = txt) as -> by congruence.
  done.
Qed.

Lemma summary_ignores_forks_and_issues_witness :
  ex_python_busy_summary !! "main_language" = ex_python_summary !! "main_language" ∧
  ex_python_busy_summary !! "project_size" = ex_python_summary !! "project_size" ∧
  ex_python_busy_summary !! "popularity_level" = ex_python_summary !! "popularity_level" ∧
  ex_python_busy_summary !! "complexity_summary" = ex_python_summary !! "complexity_summary".
Proof.
  apply (summary_ignores_forks_and_issues ex_python ex_python_busy
           ex_python_summary ex_python_busy_summary).
  - apply (dict_nonempty _ "size" (VInt 5000)). reflexivity.
  - apply (dict_nonempty _ "size" (VInt 5000)). reflexivity.
  - intros k Hk. unfold summary_input_keys in Hk.
    repeat (apply elem_of_cons in Hk as [->|Hk]; [reflexivity|]).
    apply elem_of_nil in Hk. destruct Hk.
  - reflexivity.
  - reflexivity.
Defined.

Lemma size_class_mono (z z' : Z) :
  z ≤ z' → (size_rank (size_class z) ≤ size_rank (size_class z'))%nat.
Proof.
  intros H. unfold size_class.
  destruct (Z.ltb_spec z 1000), (Z.ltb_spec z' 1000),
    (Z.ltb_spec z 10000), (Z.ltb_spec z' 10000); vm_compute; lia.
Qed.

Lemma popularity_class_mono (z z' : Z) :
  z ≤ z' → (popularity_rank (popularity_class z) ≤ popularity_rank (popularity_class z'))%nat.
Proof.
  intros H. unfold popularity_class.
  destruct (Z.ltb_spec z 100), (Z.ltb_spec z' 100),
    (Z.ltb_spec z 1000), (Z.ltb_spec z' 1000); vm_compute; lia.
Qed.

Lemma activity_class_mono (z z' : Z) :
  z ≤ z' → (activity_rank (activity_class z) ≤ activity_rank (activity_class z'))%nat.
Proof.
  intros H. unfold activity_class. rewrite !Z.gtb_ltb.
  destruct (Z.ltb_spec 10 z), (Z.ltb_spec 10 z'),
    (Z.ltb_spec 0 z), (Z.ltb_spec 0 z'); vm_compute; lia.
Qed.

(** X5: the three classifications are monotone.  Of two non-empty
    descriptors on which the call returns, the one with the larger size never
    gets the lower project_size (Small < Medium < Large), the one with more
    stars never the lower popularity_level (Low < Medium < High), the one
    with more open issues never the lower activity_level
    (Low < Moderate < Active). *)
Theorem classifications_are_monotone (d d' r r' : gmap string value) :
  d ≠ ∅ → d' ≠ ∅ →
  analyze_code_metrics (ODict d) = Returned r →
  analyze_code_metrics (ODict d') = Returned r' →
  ∃ zs zs' zt zt' zi zi',
    as_int (default (VInt 0) (d !! "size")) = Some zs ∧
    as_int (default (VInt 0) (d' !! "size")) = Some zs' ∧
    as_int (default (VInt 0) (d !! "stargazers_count")) = Some zt ∧
    as_int (default (VInt 0) (d' !! "stargazers_count")) = Some zt' ∧
    as_int (default (VInt 0) (d !! "open_issues_count")) = Some zi ∧
    as_int (default (VInt 0) (d' !! "open_issues_count")) = Some zi' ∧
    (zs ≤ zs' →
     (field_rank size_rank r "project_size" ≤ field_rank size_rank r' "project_size")%nat) ∧
    (zt ≤ zt' →
     (field_rank popularity_rank r "popularity_level"
      ≤ field_rank popularity_rank r' "popularity_level")%nat) ∧
    (zi ≤ zi' →
     (field_rank activity_rank r "activity_level"
      ≤ field_rank activity_rank r' "activity_level")%nat).
Proof.
  intros Hd Hd' Hr Hr'.
  destruct (analyze_returned_lookup d r Hd Hr)
    as (zs & zt & zi & txt & Hs & Ht & Hi & _ & _ & Hp & Hpop & Ha & _).
  destruct (analyze_returned_lookup d' r' Hd' Hr')
    as (zs' & zt' & zi' & txt' & Hs' & Ht' & Hi' & _ & _ & Hp' & Hpop' & Ha' & _).
  exists zs, zs', zt, zt', zi, zi'. unfold field_rank.
  rewrite Hp, Hp', Hpop, Hpop', Ha, Ha'.
  repeat split; try assumption.
  - apply size_class_mono.
  - apply popularity_class_mono.
  - apply activity_class_mono.
Qed.

Lemma classifications_are_monotone_witness :
  ∃ zs zs' zt zt' zi zi',
    as_int (default (VInt 0) (ex_python !! "size")) = Some zs ∧
    as_int (default (VInt 0) (ex_large !! "size")) = Some zs' ∧
    as_int (default (VInt 0) (ex_python !! "stargazers_count")) = Some zt ∧
    as_int (default (VInt 0) (ex_large !! "stargazers_count")) = Some zt' ∧
    as_int (default (VInt 0) (ex_python !! "open_issues_count")) = Some zi ∧
    as_int (default (VInt 0) (ex_large !! "open_issues_count")) = Some zi' ∧
    (zs ≤ zs' →
     (field_rank size_rank ex_python_summary "project_size"
      ≤ field_rank size_rank ex_large_summary "project_size")%nat) ∧
    (zt ≤ zt' →
     (field_rank popularity_rank ex_python_summary "popularity_level"
      ≤ field_rank popularity_rank ex_large_summary "popularity_level")%nat) ∧
    (zi ≤ zi' →
     (field_rank activity_rank ex_python_summary "activity_level"
      ≤ field_rank activity_rank ex_large_summary "activity_level")%nat).
Proof.
  apply (classifications_are_monotone ex_python ex_large
           ex_python_summary ex_large_summary).
  - apply (dict_nonempty _ "size" (VInt 5000)). reflexivity.
  - apply (dict_nonempty _ "size" (VInt 50000)). reflexivity.
  - reflexivity.
  - reflexivity.
Defined.

(** X6: whatever the descriptor, a returned summary holds one of the three
    levels of each classification: project_size is Small, Medium or Large,
    popularity_level is Low, Medium or High, activity_level is Low, Moderate
    or Active. *)
Theorem classification_levels (o : object) (r : gmap string value) :
  truthy o = true → analyze_code_metrics o = Returned r →
  r !! "project_size" ∈ [Some (VStr "Small"); Some (VStr "Medium"); Some (VStr "Large")] ∧
  r !! "popularity_level" ∈ [Some (VStr "Low"); Some (VStr "Medium"); Some (VStr "High")] ∧
  r !! "activity_level" ∈ [Some (VStr "Low"); Some (VStr "Moderate"); Some (VStr "Active")].
Proof.
  intros Ht Hr.
  destruct (analyze_returned_is_dict o r Ht Hr) as (d & -> & Hd).
  destruct (analyze_returned_lookup d r Hd Hr)
    as (zs & zt & zi & txt & _ & _ & _ & _ & _ & -> & -> & -> & _).
  unfold size_class, popularity_class, activity_class.
  repeat split.
  - destruct (zs <? 1000); [|destruct (zs <? 10000)]; set_solver.
  - destruct (zt <? 100); [|destruct (zt <? 1000)]; set_solver.
  - destruct (zi >? 10); [|destruct (zi >? 0)]; set_solver.
Qed.

Lemma classification_levels_witness :
  ex_python_summary !! "project_size"
    ∈ [Some (VStr "Small"); Some (VStr "Medium"); Some (VStr "Large")] ∧
  ex_python_summary !! "popularity_level"
    ∈ [Some (VStr "Low"); Some (VStr "Medium"); Some (VStr "High")] ∧
  ex_python_summary !! "activity_level"
    ∈ [Some (VStr "Low"); Some (VStr "Moderate"); Some (VStr "Active")].
Proof.
  apply (classification_levels (ODict ex_python) ex_python_summary);
    reflexivity.
Defined.

Lemma compared_numeric_fields (d : gmap string value) :
  compared_numeric d = true →
  ∃ zs zt zi,
    as_int (default (VInt 0) (d !! "size")) = Some zs ∧
    as_int (default (VInt 0) (d !! "stargazers_count")) = Some zt ∧
    as_int (default (VInt 0) (d !! "open_issues_count")) = Some zi.
Proof.
  unfold compared_numeric, compared_keys, is_number. simpl.
  rewrite !andb_true_iff. intros (Hs & Ht & Hi & _).
  destruct (as_int (default (VInt 0) (d !! "size"))) as [zs|]; [|discriminate].
  destruct (as_int (default (VInt 0) (d !! "stargazers_count"))) as [zt|]; [|discriminate].
  destruct (as_int (default (VInt 0) (d !! "open_issues_count"))) as [zi|]; [|discriminate].
  exists zs, zt, zi. repeat split; reflexivity.
Qed.

(** X7: the default "Unknown" stands in for an absent key only.  When the
    key language is present and holds None, and the three compared values
    are numbers, the call returns a summary whose main_language is None and
    whose complexity_summary names the language "None". *)
Theorem null_language_is_not_defaulted (d : gmap string value) :
  d !! "language" = Some VNone → compared_numeric d = true →
  ∃ r project_size popularity_level,
    analyze_code_metrics (ODict d) = Returned r ∧
    r !! "main_language" = Some VNone ∧
    r !! "project_size" = Some (VStr project_size) ∧
    r !! "popularity_level" = Some (VStr popularity_level) ∧
    r !! "complexity_summary" =
      Some (VStr (project_size +:+ " None project with "
                  +:+ py_lower popularity_level +:+ " popularity")).
Proof.
  intros Hl Hn.
  destruct (compared_numeric_fields d Hn) as (zs & zt & zi & Hs & Ht & Hi).
  rewrite (analyze_dict d (dict_nonempty d "language" VNone Hl)).
  rewrite derived_metrics_cases, Hs, Ht, Hi, Hl. simpl.
  eexists _, (size_class zs), (popularity_class zt).
  split; [reflexivity|]. repeat split; reflexivity.
Qed.

Lemma null_language_is_not_defaulted_witness :
  ∃ r project_size popularity_level,
    analyze_code_metrics (ODict ex_null_language) = Returned r ∧
    r !! "main_language" = Some VNone ∧
    r !! "project_size" = Some (VStr project_size) ∧
    r !! "popularity_level" = Some (VStr popularity_level) ∧
    r !! "complexity_summary" =
      Some (VStr (project_size +:+ " None project with "
                  +:+ py_lower popularity_level +:+ " popularity")).
Proof. apply (null_language_is_not_defaulted ex_null_language); reflexivity. Defined.

(** X8: the call does not recognise its own output.  Any dictionary it
    returned, the error dictionary included, is a non-empty dictionary with
    none of the five consumed keys, so passing it back in returns the
    summary built from the defaults. *)
Theorem output_fed_back_gives_defaults (o : object) (r : gmap string value) :
  analyze_code_metrics o = Returned r →
  analyze_code_metrics (ODict r) = Returned default_summary.
Proof.
  intros Hr. destruct (truthy o) eqn:Ht.
  - destruct (analyze_returned_truthy o r Ht Hr)
      as (d & zs & zt & zi & txt & _ & _ & _ & _ & _ & _ & ->).
    rewrite analyze_dict.
    + reflexivity.
    + eapply dict_nonempty. apply metrics_dict_fields.
  - rewrite (analyze_falsy o Ht) in Hr. injection Hr as <-.
    reflexivity.
Qed.

Lemma output_fed_back_gives_defaults_witness :
  analyze_code_metrics (ODict ex_python_summary) = Returned default_summary.
Proof.
  apply (output_fed_back_gives_defaults (ODict ex_python) ex_python_summary).
  reflexivity.
Defined.

(** X9: a consumed key that is absent and the same key holding its default
    are not told apart: on a non-empty descriptor, adding language "Unknown"
    or one of size, stargazers_count, forks_count, open_issues_count with the
    value 0 where the key was absent leaves the outcome of the call as it
    was. *)
Theorem explicit_default_is_absent (d : gmap string value) (k : string) (v : value) :
  d ≠ ∅ → (k, v) ∈ consumed_defaults → d !! k = None →
  analyze_code_metrics (ODict (<[ k := v ]> d)) = analyze_code_metrics (ODict d).
Proof.
  intros Hd Hk Hnone.
  rewrite (analyze_dict d Hd), (analyze_dict _ (insert_non_empty d k v)).
  unfold consumed_defaults in Hk.
  repeat (apply elem_of_cons in Hk as [[= -> ->]|Hk];
          [rewrite lookup_insert_eq, !lookup_insert_ne, Hnone by discriminate;
           reflexivity|]).
  apply elem_of_nil in Hk. destruct Hk.
Qed.

Lemma explicit_default_is_absent_witness :
  analyze_code_metrics (ODict (<[ "size" := VInt 0 ]> ex_unrelated)) =
  analyze_code_metrics (ODict ex_unrelated).
Proof.
  apply (explicit_default_is_absent ex_unrelated "size" (VInt 0)).
  - apply (dict_nonempty _ "name" (VStr "demo")). reflexivity.
  - unfold consumed_defaults. apply elem_of_cons. right.
    apply elem_of_cons. left. reflexivity.
  - reflexivity.
Defined.

(** X10: on the heap, a call that returns adds exactly one object, the
    returned dictionary, at an address that was not in use: the result is
    never the descriptor itself nor any object the caller already holds, and
    a second call returns yet another object.  A call that raises leaves the
    heap as it was. *)
Theorem result_is_a_new_object (h : gmap loc object) (l : loc) (o : object) :
  h !! l = Some o →
  ∃ h1 out1,
    analyze_code_metrics_heap l h = (h1, out1) ∧
    match out1 with
    | Returned p =>
        h !! p = None ∧ p ≠ l ∧ dom h1 = {[ p ]} ∪ dom h ∧
        ∃ h2 p2, analyze_code_metrics_heap l h1 = (h2, Returned p2) ∧
                 p2 ≠ p ∧ p2 ≠ l ∧ h1 !! p2 = None
    | Raised e => h1 = h
    end.
Proof.
  intros Hl. rewrite (analyze_heap_refines h l o Hl).
  destruct (analyze_code_metrics o) as [r|e] eqn:Hr.
  2:{ do 2 eexists. split; reflexivity. }
  do 2 eexists. split; [reflexivity|].
  assert (h !! fresh (dom h) = None) as Hfresh
    by apply not_elem_of_dom, is_fresh.
  assert (fresh (dom h) ≠ l) as Hne by (intros E; rewrite E in Hfresh; congruence).
  split; [exact Hfresh|]. split; [exact Hne|]. split; [apply dom_insert_L|].
  set (h1 := <[ fresh (dom h) := ODict r ]> h).
  assert (h1 !! l = Some o) as Hl1
    by (subst h1; rewrite lookup_insert_ne by exact Hne; exact Hl).
  assert (h1 !! fresh (dom h1) = None) as Hfresh1
    by apply not_elem_of_dom, is_fresh.
  rewrite (analyze_heap_refines h1 l o Hl1), Hr.
  do 2 eexists. split; [reflexivity|].
  split; [|split; [|exact Hfresh1]].
  - intros E. rewrite E in Hfresh1. subst h1.
    rewrite lookup_insert_eq in Hfresh1. discriminate.
  - intros E. rewrite E in Hfresh1. congruence.
Qed.

Lemma result_is_a_new_object_witness :
  ∃ h1 out1,
    analyze_code_metrics_heap 1%positive ex_heap = (h1, out1) ∧
    match out1 with
    | Returned p =>
        ex_heap !! p = None ∧ p ≠ 1%positive ∧ dom h1 = {[ p ]} ∪ dom ex_heap ∧
        ∃ h2 p2, analyze_code_metrics_heap 1%positive h1 = (h2, Returned p2) ∧
                 p2 ≠ p ∧ p2 ≠ 1%positive ∧ h1 !! p2 = None
    | Raised e => h1 = ex_heap
    end.
Proof. apply (result_is_a_new_object ex_heap 1%positive (ODict ex_python)). reflexivity. Defined.
